(** * GElib: the bipartite SO(3) view adapter, the Python binding shim and
      the SO3vecB test driver

    A shallow embedding of
    - [objects/SO3n/SO3bipartView.hpp]   (class [SO3bipartView<RTYPE>]),
    - [python/GElib_py.cpp]              (module definition, [SO3type] bindings),
    - [python/bindings/SO3part_py.cpp]   ([SO3part<float>] bindings),
    - [objects/SO3/tests/testSO3vecB.cpp] (the test driver's [main]).

    Calls into the cnine / GElib native libraries are external to these
    files.  They are modelled as events of a free monad; a handler stands
    for an arbitrary behaviour of the native side, and the theorems
    quantify over all handlers. *)

From Stdlib Require Import ZArith Lia String Ascii List.
From stdpp Require Import base numbers option list gmap strings pretty.

Local Open Scope Z_scope.

(* ===================================================================== *)
(** ** C++ [int] arithmetic *)
(* ===================================================================== *)

Module CInt.

Definition int_min : Z := - 2 ^ 31.
Definition int_max : Z := 2 ^ 31 - 1.

(** Reduction of an integer to the 32-bit two's complement range. *)
Definition wrap (z : Z) : Z := (z + 2 ^ 31) `mod` 2 ^ 32 - 2 ^ 31.

Definition sub (a b : Z) : Z := wrap (a - b).
Definition mul (a b : Z) : Z := wrap (a * b).

(** [a / b] on C++ ints truncates toward zero. *)
Definition div (a b : Z) : Z := wrap (a `quot` b).

Definition in_range (z : Z) : Prop := int_min <= z <= int_max.

End CInt.

(* ===================================================================== *)
(** ** Tensor views *)
(* ===================================================================== *)

(** Addresses of element storage.  [arr.ptr_as<RTYPE>()] reinterprets
    the complex pointer as a pointer to reals at the same address. *)
Definition addr := N.

Definition ptr_as (a : addr) : addr := a.

(** The members of [cnine::BatchedTensorView<complex<RTYPE>>] that
    [SO3bipartView] names in its using-declarations: [arr], [dims],
    [strides] and [device()].  [dims] and [strides] are vectors indexed
    with [operator[]]. *)
Record BatchedTensorView := mkTensorView {
  arr : addr;
  dims : list Z;
  strides : list Z;
  device : Z
}.

(** [class SO3bipartView : public BatchedTensorView<complex<RTYPE>>]
    declares no data member: an object is its base subobject. *)
Record SO3bipartView := mkBipart {
  base : BatchedTensorView
}.

(** What [cnine::Ctensor4_view]'s constructor is given:
    [(arr, dims, strides, coffs, dev)]. *)
Record Ctensor4_view := mkCtensor4 {
  c4_arr : addr;
  c4_dims : list Z;
  c4_strides : list Z;
  c4_coffs : Z;
  c4_dev : Z
}.

(** [v[i]] on a vector: reading past the end is undefined, [None] here. *)
Definition at_index (v : list Z) (i : nat) : option Z := v !! i.

(** [operator cnine::Ctensor4_view() const] *)
Definition to_Ctensor4_view (x : SO3bipartView) : option Ctensor4_view :=
  d0 ← at_index (dims (base x)) 0;
  d1 ← at_index (dims (base x)) 1;
  d2 ← at_index (dims (base x)) 2;
  d3 ← at_index (dims (base x)) 3;
  s0 ← at_index (strides (base x)) 0;
  s1 ← at_index (strides (base x)) 1;
  s2 ← at_index (strides (base x)) 2;
  s3 ← at_index (strides (base x)) 3;
  Some (mkCtensor4 (ptr_as (arr (base x)))
          [d0; d1; d2; d3]
          [CInt.mul 2 s0; CInt.mul 2 s1; CInt.mul 2 s2; CInt.mul 2 s3]
          1
          (device (base x))).

(** [int getl1() const { return (dims[1]-1)/2; }] *)
Definition getl1 (x : SO3bipartView) : option Z :=
  d ← at_index (dims (base x)) 1;
  Some (CInt.div (CInt.sub d 1) 2).

(** [int getl2() const { return (dims[2]-1)/2; }] *)
Definition getl2 (x : SO3bipartView) : option Z :=
  d ← at_index (dims (base x)) 2;
  Some (CInt.div (CInt.sub d 1) 2).

(** [int getn() const { return dims[3]; }] *)
Definition getn (x : SO3bipartView) : option Z :=
  at_index (dims (base x)) 3.



(* ===================================================================== *)
(** ** External calls as events *)
(* ===================================================================== *)

(** A C++ exception, identified by its message. *)
Definition exn := string.

(** How a call ends: it returns a value or an exception leaves it. *)
Inductive outcome (X : Type) : Type :=
| Returned (x : X)
| Raised (e : exn).
Arguments Returned {X} x.
Arguments Raised {X} e.

(** Programs over a signature [E] of external calls: [E X] are the calls
    that answer with an [X]. *)
Inductive Prog (E : Type -> Type) (R : Type) : Type :=
| Ret (r : R)
| Vis (X : Type) (e : E X) (k : X -> Prog E R).
Arguments Ret {E R} r.
Arguments Vis {E R X} e k.

Fixpoint bind {E : Type -> Type} {A B : Type}
    (p : Prog E A) (f : A -> Prog E B) : Prog E B :=
  match p with
  | Ret a => f a
  | Vis e k => Vis e (fun x => bind (k x) f)
  end.

Definition call {E : Type -> Type} {X : Type} (e : E X) : Prog E X :=
  Vis e Ret.

(** Sequencing is written with the monad notation: [x ← p; q]. *)
#[global] Instance Prog_ret {E : Type -> Type} : MRet (Prog E) :=
  fun _ r => Ret r.
#[global] Instance Prog_bind {E : Type -> Type} : MBind (Prog E) :=
  fun _ _ f p => bind p f.

(** One entry of a run's log: the call made and how it ended. *)
Inductive step (E : Type -> Type) : Type :=
| Step (X : Type) (e : E X) (o : outcome X).
Arguments Step {E X} e o.

Section Run.
Context {E : Type -> Type} {W : Type}.

(** The native side: every call may read and change the state [W] of
    the world outside the program and returns or raises. *)
Variable h : forall X, E X -> W -> outcome X * W.

(** Runs a program against the native side.  An exception raised by a
    call is not caught by any program of this development: it ends the
    run. *)
Fixpoint run {R : Type} (p : Prog E R) (w : W)
    : list (step E) * outcome R * W :=
  match p with
  | Ret r => ([], Returned r, w)
  | Vis e k =>
      match h _ e w with
      | (Returned x, w1) =>
          let '(t, o, w2) := run (k x) w1 in
          (Step e (Returned x) :: t, o, w2)
      | (Raised ex, w1) => ([Step e (Raised ex)], Raised ex, w1)
      end
  end.

(** The run of the single call [e]. *)
Definition run_native {X : Type} (e : E X) (w : W)
    : list (step E) * outcome X * W :=
  let '(o, w1) := h _ e w in ([Step e o], o, w1).

End Run.

(* ===================================================================== *)
(** ** [SO3bipartView]: construction, batches, CG-transforms, I/O *)
(* ===================================================================== *)

(** Modelled from the spec: the copy constructor of
    [cnine::BatchedTensorView] is declared in cnine's headers, which are
    not among the sources.  The spec's data model says of views that they
    "alias but do not own" their storage: the copy names the same storage
    with the same shape, and no element is touched. *)
Definition TensorView_copy (x : BatchedTensorView) : BatchedTensorView :=
  mkTensorView (arr x) (dims x) (strides x) (device x).

(** [SO3bipartView(const TensorView& x): TensorView(x){}] *)
Definition SO3bipartView_of (x : BatchedTensorView) : SO3bipartView :=
  mkBipart (TensorView_copy x).

(** Objects live in a store; element storage lives in a heap.  The
    element type (complex numbers over [RTYPE]) is left open. *)
Definition oid := N.

Record Memory (T : Type) := mkMemory {
  heap : gmap addr T;
  objects : gmap oid BatchedTensorView
}.
Arguments mkMemory {T} heap objects.
Arguments heap {T} m.
Arguments objects {T} m.

(** The converting constructor run on the object [self], from the object
    the reference [src] names.  A dangling reference is [None]. *)
Definition construct_SO3bipartView {T : Type}
    (self src : oid) (m : Memory T) : option (Memory T) :=
  x ← objects m !! src;
  Some (mkMemory (heap m) (<[self := base (SO3bipartView_of x)]> (objects m))).

Section Adapter.
(** Declared in headers that are not among the sources:
    [SO3partView<RTYPE>] with its conversion to [cnine::Ctensor3_view],
    and [bbatch] and [getb] of [BatchedTensorView]. *)
Context {SO3partView Ctensor3_view : Type}.
Variable to_Ctensor3_view : SO3partView -> Ctensor3_view.
Variable bbatch : BatchedTensorView -> Z -> BatchedTensorView.
Variable getb : BatchedTensorView -> Z.

(** The two kernels, function objects applied to
    [(destination, source, offs)]. *)
Inductive KernelE : Type -> Type :=
| SO3part_addCGtransformFn
    (r : Ctensor3_view) (x : Ctensor4_view) (offs : Z) : KernelE unit
| SO3part_addCGtransform_backFn
    (x : Ctensor4_view) (r : Ctensor3_view) (offs : Z) : KernelE unit.

(** [SO3bipartView<RTYPE> batch(const int i) const { return bbatch(i); }]:
    the result of [bbatch] is converted by the constructor above. *)
Definition batch (x : SO3bipartView) (i : Z) : SO3bipartView :=
  SO3bipartView_of (bbatch (base x) i).

(** [void add_CGtransform_to(const SO3partView<RTYPE>& r, const int offs=0) const] *)
Definition add_CGtransform_to (x : SO3bipartView) (r : SO3partView) (offs : Z)
    : option (Prog KernelE unit) :=
  x4 ← to_Ctensor4_view x;
  Some (call (SO3part_addCGtransformFn (to_Ctensor3_view r) x4 offs)).

(** [void add_CGtransform_back(const SO3partView<RTYPE>& r, const int offs=0) const] *)
Definition add_CGtransform_back (x : SO3bipartView) (r : SO3partView) (offs : Z)
    : option (Prog KernelE unit) :=
  x4 ← to_Ctensor4_view x;
  Some (call (SO3part_addCGtransform_backFn x4 (to_Ctensor3_view r) offs)).

(** [std::to_string] on an [int]. *)
Definition to_string (z : Z) : string := pretty z.

(** [string repr(const string indent="") const] *)
Definition repr (x : SO3bipartView) (indent : string) : option string :=
  l1 ← getl1 x;
  l2 ← getl2 x;
  n ← getn x;
  Some ("<GElib::SO3bipart(b=" +:+ to_string (getb (base x))
        +:+ ",l1=" +:+ to_string l1
        +:+ ",l2=" +:+ to_string l2
        +:+ ",n=" +:+ to_string n +:+ ")>").

(** The public members of the class, by result type.  [offs] is
    [None] when the caller leaves it to its default [0]; so is
    [indent], with default the empty string. *)
Inductive member : Type -> Type :=
| m_Ctensor4_view : member Ctensor4_view
| m_getl1 : member Z
| m_getl2 : member Z
| m_getn : member Z
| m_batch (i : Z) : member SO3bipartView
| m_add_CGtransform_to (r : SO3partView) (offs : option Z) : member unit
| m_add_CGtransform_back (r : SO3partView) (offs : option Z) : member unit
| m_repr (indent : option string) : member string.

Definition pure_member {R : Type} (o : option R) : option (Prog KernelE R) :=
  r ← o; Some (Ret r).

(** A member function called on the view [x]. *)
Definition invoke {R : Type} (x : SO3bipartView) (m : member R)
    : option (Prog KernelE R) :=
  match m with
  | m_Ctensor4_view => pure_member (to_Ctensor4_view x)
  | m_getl1 => pure_member (getl1 x)
  | m_getl2 => pure_member (getl2 x)
  | m_getn => pure_member (getn x)
  | m_batch i => pure_member (Some (batch x i))
  | m_add_CGtransform_to r offs => add_CGtransform_to x r (default 0 offs)
  | m_add_CGtransform_back r offs => add_CGtransform_back x r (default 0 offs)
  | m_repr indent => pure_member (repr x (default "" indent))
  end.

(** The members under the heading "CG-transforms" of the class. *)
Definition is_CGtransform {R : Type} (m : member R) : bool :=
  match m with
  | m_add_CGtransform_to _ _ | m_add_CGtransform_back _ _ => true
  | _ => false
  end.

End Adapter.

(* ===================================================================== *)
(** ** [SO3type] *)
(* ===================================================================== *)

(** Modelled from the spec: the class [SO3type] ([SO3type.hpp]) is not
    among the sources; only the registration of its members in
    [GElib_py.cpp] is.  The registration shows what an object is built
    from, a [vector<int>] of signed ints, and the spec's data model
    describes it as "an ordered sequence" of integers, "one per
    represented degree", whose "length is immutable after construction
    except via explicit index assignment", with "constructors,
    accessors, string representations".  The spec knows of no
    validation: "the binding layer performs no validation or translation
    of errors".  The entry at position [l] is the multiplicity of degree
    [l]. *)
Definition SO3type := list Z.


Module SO3type_members.



(** [SO3type::size], bound as [__len__]. *)
Definition size (t : SO3type) : Z := Z.of_nat (length t).

(** [SO3type::maxl]: the largest represented degree. *)
Definition maxl (t : SO3type) : Z := size t - 1.



End SO3type_members.

Section SO3type_bindings.
(** Bodies outside the sources: the string representations, and the free
    function [CGproduct] on types, which takes both types by reference
    to const ([GElib_py.cpp], line 61) and returns a new one. *)
Variable type_str : SO3type -> string -> string.
Variable type_repr : SO3type -> string -> string.
Variable type_CGproduct : SO3type -> SO3type -> Z -> SO3type.

(** What [GElib_py.cpp] exposes on an [SO3type] object, in the order of
    registration.  An argument with a declared default is [None] when
    the caller omits it. *)
Inductive SO3type_op : Type -> Type :=
| t___len__ : SO3type_op Z
| t_maxl : SO3type_op Z
| t___getitem__ (l : Z) : SO3type_op Z
| t___setitem__ (l m : Z) : SO3type_op unit
| t_str (indent : option string) : SO3type_op string
| t___str__ (indent : option string) : SO3type_op string
| t___repr__ (indent : option string) : SO3type_op string
| t_CGproduct (y : SO3type) (maxl : option Z) : SO3type_op SO3type.



End SO3type_bindings.

(* ===================================================================== *)
(** ** The [SO3part<float>] bindings of [SO3part_py.cpp] *)
(* ===================================================================== *)

Section Bindings.
(** [SO3part<float>] and [at::Tensor]. *)
Context {SO3part Tensor : Type}.

(** The native functions the bindings name. *)
Inductive NativeE : Type -> Type :=
| SO3part_of_Tensor (x : Tensor) : NativeE SO3part
| SO3part_raw (b l n dev : Z) : NativeE SO3part
| SO3part_zero (b l n dev : Z) : NativeE SO3part
| SO3part_gaussian (b l n dev : Z) : NativeE SO3part
| SO3part_torch (x : SO3part) : NativeE Tensor
| SO3part_device (x : SO3part) : NativeE Z
| SO3part_getb (x : SO3part) : NativeE Z
| SO3part_getl (x : SO3part) : NativeE Z
| SO3part_getn (x : SO3part) : NativeE Z
| SO3part_str (x : SO3part) (indent : string) : NativeE string
| SO3part_repr (x : SO3part) (indent : string) : NativeE string
| CGproduct (x y : SO3part) (l : Z) : NativeE SO3part.

(** The lambdas of the file. *)

(** [[](const int b, const int l, const int n, const int dev){
      return SO3part<float>::raw(b,l,n,dev);}] *)
Definition raw_lambda (b l n dev : Z) : Prog NativeE SO3part :=
  call (SO3part_raw b l n dev).

Definition zero_lambda (b l n dev : Z) : Prog NativeE SO3part :=
  call (SO3part_zero b l n dev).

Definition gaussian_lambda (b l n dev : Z) : Prog NativeE SO3part :=
  call (SO3part_gaussian b l n dev).

(** [[](const SO3part<float>& x){return x.torch();}] *)
Definition torch_lambda (x : SO3part) : Prog NativeE Tensor :=
  call (SO3part_torch x).

(** [[](const SO3part<float>& obj){return 1;}] *)
Definition len_lambda (obj : SO3part) : Prog NativeE Z :=
  Ret 1.

(** [[](const SO3part<float>& x, const SO3part<float>& y, const int l){
      return CGproduct(x,y,l);}] *)
Definition CGproduct_lambda (x y : SO3part) (l : Z) : Prog NativeE SO3part :=
  call (CGproduct x y l).

(** What the file registers, as a Python caller sees it.  An argument
    declared with a default ([n=1], [device=0], [indent=""]) is [None]
    when the caller omits it. *)
Inductive PyCall : Type -> Type :=
| py_init (x : Tensor) : PyCall SO3part
| py_raw (b l : Z) (n dev : option Z) : PyCall SO3part
| py_zero (b l : Z) (n dev : option Z) : PyCall SO3part
| py_gaussian (b l : Z) (n dev : option Z) : PyCall SO3part
| py_torch (x : SO3part) : PyCall Tensor
| py___len__ (obj : SO3part) : PyCall Z
| py_device (x : SO3part) : PyCall Z
| py_getb (x : SO3part) : PyCall Z
| py_getl (x : SO3part) : PyCall Z
| py_getn (x : SO3part) : PyCall Z
| py_str (x : SO3part) (indent : option string) : PyCall string
| py___str__ (x : SO3part) (indent : option string) : PyCall string
| py___repr__ (x : SO3part) (indent : option string) : PyCall string
| py_CGproduct (x y : SO3part) (l : Z) : PyCall SO3part.

(** The callable registered under each name, applied. *)
Definition binding {R : Type} (c : PyCall R) : Prog NativeE R :=
  match c with
  | py_init x => call (SO3part_of_Tensor x)
  | py_raw b l n dev => raw_lambda b l (default 1 n) (default 0 dev)
  | py_zero b l n dev => zero_lambda b l (default 1 n) (default 0 dev)
  | py_gaussian b l n dev => gaussian_lambda b l (default 1 n) (default 0 dev)
  | py_torch x => torch_lambda x
  | py___len__ obj => len_lambda obj
  | py_device x => call (SO3part_device x)
  | py_getb x => call (SO3part_getb x)
  | py_getl x => call (SO3part_getl x)
  | py_getn x => call (SO3part_getn x)
  | py_str x indent => call (SO3part_str x (default "" indent))
  | py___str__ x indent => call (SO3part_str x (default "" indent))
  | py___repr__ x indent => call (SO3part_repr x (default "" indent))
  | py_CGproduct x y l => CGproduct_lambda x y l
  end.

End Bindings.

(* ===================================================================== *)
(** ** The extension module of [GElib_py.cpp] *)
(* ===================================================================== *)

(** The objects the translation unit defines at namespace scope, in the
    order of their definitions, as (class, name):
    [GElib::GElibSession session;]. *)
Definition globals : list (string * string) :=
  [("GElib::GElibSession", "session")].

(** What the body of [PYBIND11_MODULE] registers from the sources, in
    order, as (scope, name): first the part of [GElib_py.cpp] itself,
    then the included [SO3part_py.cpp]. *)
Definition module_defs : list (string * string) :=
  [ ("SO3type", "__init__"); ("SO3type", "__init__");
    ("SO3type", "__len__"); ("SO3type", "maxl");
    ("SO3type", "__getitem__"); ("SO3type", "__setitem__");
    ("SO3type", "str"); ("SO3type", "__str__"); ("SO3type", "__repr__");
    ("m", "CGproduct");
    ("SO3part", "__init__");
    ("SO3part", "raw"); ("SO3part", "zero"); ("SO3part", "gaussian");
    ("SO3part", "torch"); ("SO3part", "__len__");
    ("SO3part", "device"); ("SO3part", "getb"); ("SO3part", "getl");
    ("SO3part", "getn");
    ("SO3part", "str"); ("SO3part", "__str__"); ("SO3part", "__repr__");
    ("m", "CGproduct") ].

Section Module_lifetime.
Context {SO3part Tensor W : Type}.
Variable h : forall X, @NativeE SO3part Tensor X -> W -> outcome X * W.

(** A bound operation as a Python program invokes it. *)
Inductive invocation : Type :=
| on_part (R : Type) (c : @PyCall SO3part Tensor R)
| on_type (R : Type) (op : SO3type_op R) (t : SO3type).

(** What happens in the process that hosts the module. *)
Inductive ModuleEvent : Type :=
| Construct (cls name : string)
| Destroy (cls name : string)
| Register (scope name : string)
| Invoke (i : invocation)
| Native (s : step (@NativeE SO3part Tensor)).

(** Objects at namespace scope are constructed in the order of their
    definitions when the module is loaded and destroyed in the reverse
    order at teardown. *)
Definition static_init : list ModuleEvent :=
  (fun g => Construct g.1 g.2) <$> globals.

Definition static_fini : list ModuleEvent :=
  (fun g => Destroy g.1 g.2) <$> reverse globals.

(** The module's initialisation function. *)
Definition module_init : list ModuleEvent :=
  (fun d => Register d.1 d.2) <$> module_defs.

(** The bound operations a Python program invokes, one after the other.
    An exception that leaves a bound operation becomes a Python
    exception; the process goes on. *)
Fixpoint script_events (script : list invocation) (w : W)
    : list ModuleEvent :=
  match script with
  | [] => []
  | on_part R c :: rest =>
      let '(t, _, w1) := run h (binding c) w in
      Invoke (on_part R c) :: (Native <$> t) ++ script_events rest w1
  | on_type R op t :: rest =>
      Invoke (on_type R op t) :: script_events rest w
  end.

Definition process_events (script : list invocation) (w : W)
    : list ModuleEvent :=
  static_init ++ module_init ++ script_events script w ++ static_fini.

Definition constructs_session (e : ModuleEvent) : bool :=
  match e with
  | Construct cls _ => bool_decide (cls = "GElib::GElibSession")
  | _ => false
  end.

Definition destroys_session (e : ModuleEvent) : bool :=
  match e with
  | Destroy cls _ => bool_decide (cls = "GElib::GElibSession")
  | _ => false
  end.

(** Neither constructs nor destroys a session. *)
Definition session_free (e : ModuleEvent) : Prop :=
  constructs_session e = false /\ destroys_session e = false.

End Module_lifetime.

(* ===================================================================== *)
(** ** The test driver [testSO3vecB.cpp] *)
(* ===================================================================== *)

Section Driver.
(** [SO3vecB] and [GElibSession] objects. *)
Context {SO3vecB GElibSession : Type}.

(** What [main] calls, with the arguments it passes. *)
Inductive DriverE : Type -> Type :=
| GElibSession_ctor : DriverE GElibSession
| GElibSession_dtor (s : GElibSession) : DriverE unit
| cout_endl : DriverE unit
| cout_SO3vecB (x : SO3vecB) : DriverE unit
| printl (name : string) (x : SO3vecB) : DriverE unit
| SO3vecB_gaussian (b : Z) (tau : SO3type) : DriverE SO3vecB
| SO3vecB_CGproduct (x y : SO3vecB) (maxl : Z) : DriverE SO3vecB
| SO3vecB_to_device (x : SO3vecB) (dev : Z) : DriverE SO3vecB
| SO3vecB_dtor (x : SO3vecB) : DriverE unit.

(** [int main(int argc, char** argv)].  The objects of the block are
    destroyed at its end in the reverse order of their declarations;
    [main] then returns 0. *)
Definition main : Prog DriverE Z :=
  session ← call GElibSession_ctor;
  call cout_endl;;
  let b := 1 in
  let tau : SO3type := [2; 2; 2] in
  u ← call (SO3vecB_gaussian 1 tau);
  v ← call (SO3vecB_gaussian 1 tau);
  call (printl "u" u);; call cout_endl;;
  call (printl "v" v);; call cout_endl;;
  w ← call (SO3vecB_CGproduct u v 2);
  call (cout_SO3vecB w);; call cout_endl;;
  call cout_endl;;
  ug ← call (SO3vecB_to_device u 1);
  vg ← call (SO3vecB_to_device v 1);
  call (printl "ug" ug);; call cout_endl;;
  call (printl "vg" vg);; call cout_endl;;
  wg ← call (SO3vecB_CGproduct ug vg 2);
  call (cout_SO3vecB wg);; call cout_endl;;
  call (SO3vecB_dtor wg);;
  call (SO3vecB_dtor vg);;
  call (SO3vecB_dtor ug);;
  call (SO3vecB_dtor w);;
  call (SO3vecB_dtor v);;
  call (SO3vecB_dtor u);;
  call (GElibSession_dtor session);;
  Ret 0.

(** The calls into the SO(3) library proper, as opposed to stream
    output and the lifetime of objects. *)
Definition is_api (s : step DriverE) : bool :=
  match s with
  | Step (SO3vecB_gaussian _ _) _
  | Step (SO3vecB_CGproduct _ _ _) _
  | Step (SO3vecB_to_device _ _) _ => true
  | Step _ _ => false
  end.

Definition is_session_ctor (s : step DriverE) : bool :=
  match s with
  | Step GElibSession_ctor _ => true
  | Step _ _ => false
  end.

Definition is_session_dtor (s : step DriverE) : bool :=
  match s with
  | Step (GElibSession_dtor _) _ => true
  | Step _ _ => false
  end.

End Driver.

(* ===================================================================== *)
(** ** Notions used to state properties *)
(* ===================================================================== *)

(** The character [c] occurs in the string [s]. *)
Fixpoint occurs (c : ascii) (s : string) : bool :=
  match s with
  | EmptyString => false
  | String a r => if decide (a = c) then true else occurs c r
  end.

(** A character that is not a decimal digit. *)
Definition not_a_digit (c : ascii) : Prop :=
  forall n : N, pretty_N_char n <> c.

Section Binding_kinds.
Context {SO3part Tensor : Type}.

(** The binding registered as [__len__]. *)
Definition is_len {R : Type} (c : @PyCall SO3part Tensor R) : bool :=
  match c with
  | py___len__ _ => true
  | _ => false
  end.

End Binding_kinds.

Section Driver_steps.
Context {SO3vecB GElibSession : Type}.

(** A transfer to another device. *)
Definition is_to_device (s : step (@DriverE SO3vecB GElibSession)) : bool :=
  match s with
  | Step (SO3vecB_to_device _ _) _ => true
  | Step _ _ => false
  end.

(** A step that returned. *)
Definition returned (s : step (@DriverE SO3vecB GElibSession)) : bool :=
  match s with
  | Step _ (Returned _) => true
  | Step _ (Raised _) => false
  end.

(** What the log and the outcome of a run of [main] obey: the session
    comes first, the library is called under a session that was
    constructed, a transfer comes after the first product was computed
    and printed, an exception is the one of the last step, and there are
    at most 28 steps. *)
Definition ordered_run
    (tr : list (step (@DriverE SO3vecB GElibSession))) (o : outcome Z) : Prop :=
  (exists o0, head tr = Some (Step GElibSession_ctor o0)) /\
  (forall (i : nat) (s : step DriverE),
      tr !! i = Some s -> is_api s = true ->
      exists sess, tr !! 0%nat = Some (Step GElibSession_ctor (Returned sess))) /\
  (forall (i : nat) (s : step DriverE),
      tr !! i = Some s -> is_to_device s = true ->
      (12 <= i)%nat /\
      exists u v p : SO3vecB,
        tr !! 8%nat = Some (Step (SO3vecB_CGproduct u v 2) (Returned p)) /\
        tr !! 9%nat = Some (Step (cout_SO3vecB p) (Returned tt))) /\
  (forall ex, o = Raised ex ->
      exists (X : Type) (e : DriverE X), last tr = Some (Step e (Raised ex))) /\
  (length tr <= 28)%nat.

End Driver_steps.

(* ===================================================================== *)
(** ** Sample native sides *)
(* ===================================================================== *)

(** Concrete behaviours of the native side, to run the programs above on.
    Objects are numbered in the order of their creation; the state of the
    world is the next free number. *)
Module Sample.

(** A library for the test driver in which every call returns. *)
Definition driver_side (X : Type) (e : @DriverE nat unit X)
    : nat -> outcome X * nat :=
  match e in DriverE X return nat -> outcome X * nat with
  | GElibSession_ctor => fun n => (Returned tt, n)
  | GElibSession_dtor _ => fun n => (Returned tt, n)
  | cout_endl => fun n => (Returned tt, n)
  | cout_SO3vecB _ => fun n => (Returned tt, n)
  | printl _ _ => fun n => (Returned tt, n)
  | SO3vecB_gaussian _ _ => fun n => (Returned n, S n)
  | SO3vecB_CGproduct _ _ _ => fun n => (Returned n, S n)
  | SO3vecB_to_device _ _ => fun n => (Returned n, S n)
  | SO3vecB_dtor _ => fun n => (Returned tt, n)
  end.

(** A library for the test driver without a second device: the transfer
    raises. *)
Definition driver_side_one_device (X : Type) (e : @DriverE nat unit X)
    : nat -> outcome X * nat :=
  match e in DriverE X return nat -> outcome X * nat with
  | SO3vecB_to_device _ _ => fun n => (Raised "no such device", n)
  | e' => driver_side _ e'
  end.

(** Kernels that count their invocations. *)
Definition kernel_side (X : Type) (e : @KernelE addr X)
    : nat -> outcome X * nat :=
  match e in KernelE X return nat -> outcome X * nat with
  | SO3part_addCGtransformFn _ _ _ => fun n => (Returned tt, S n)
  | SO3part_addCGtransform_backFn _ _ _ => fun n => (Returned tt, S n)
  end.

(** A native side for the bindings that rejects a negative batch size,
    degree or channel count, as a library that validates would. *)
Definition checked (b l n : Z) (k : nat) : outcome nat * nat :=
  if decide (0 <= b /\ 0 <= l /\ 0 <= n) then (Returned k, S k)
  else (Raised "invalid dimensions", k).

Definition native_side (X : Type) (e : @NativeE nat nat X)
    : nat -> outcome X * nat :=
  match e in NativeE X return nat -> outcome X * nat with
  | SO3part_of_Tensor _ => fun k => (Returned k, S k)
  | SO3part_raw b l n _ => checked b l n
  | SO3part_zero b l n _ => checked b l n
  | SO3part_gaussian b l n _ => checked b l n
  | SO3part_torch _ => fun k => (Returned k, S k)
  | SO3part_device _ => fun k => (Returned 0, k)
  | SO3part_getb _ => fun k => (Returned 3, k)
  | SO3part_getl _ => fun k => (Returned 2, k)
  | SO3part_getn _ => fun k => (Returned 5, k)
  | SO3part_str _ _ => fun k => (Returned "", k)
  | SO3part_repr _ _ => fun k => (Returned "", k)
  | CGproduct _ _ _ => fun k => (Returned k, S k)
  end.

(** A view over a tensor of shape [2 x 5 x 3 x 4] and a part view. *)
Definition bipart : SO3bipartView :=
  mkBipart (mkTensorView 16%N [2; 5; 3; 4] [60; 12; 4; 1] 0).

Definition part : BatchedTensorView :=
  mkTensorView 512%N [2; 3; 4] [12; 4; 1] 0.

(** A store with one tensor view and the storage it names. *)
Definition memory : Memory Z :=
  mkMemory {[ 16%N := 7 ]} {[ 1%N := base bipart ]}.

End Sample.

(* ===================================================================== *)
(** * Properties *)
(* ===================================================================== *)

(** ** Arithmetic without overflow *)

Module CIntFacts.
Import CInt.

Lemma wrap_in_range z : in_range z -> wrap z = z.
Proof.
  unfold in_range, wrap, int_min, int_max. intros Hz.
  rewrite Z.mod_small; lia.
Qed.

Lemma wrap_range z : in_range (wrap z).
Proof.
  unfold in_range, wrap, int_min, int_max.
  pose proof (Z.mod_pos_bound (z + 2 ^ 31) (2 ^ 32) ltac:(lia)). lia.
Qed.

Lemma quot2_range z : in_range z -> in_range (z `quot` 2).
Proof.
  unfold in_range, int_min, int_max. intros Hz.
  destruct (Z.le_gt_cases 0 z) as [Hp | Hn].
  - pose proof (Z.quot_pos z 2 Hp ltac:(lia)).
    pose proof (Z.quot_le_upper_bound z 2 z ltac:(lia) ltac:(lia)). lia.
  - assert (Hq : z `quot` 2 = - ((- z) `quot` 2))
      by (rewrite Z.quot_opp_l by lia; lia).
    pose proof (Z.quot_pos (- z) 2 ltac:(lia) ltac:(lia)).
    pose proof (Z.quot_le_upper_bound (- z) 2 (- z) ltac:(lia) ltac:(lia)).
    lia.
Qed.

(** Without overflow the machine operations are the exact ones. *)
Lemma sub_exact a b : in_range (a - b) -> sub a b = a - b.
Proof. apply wrap_in_range. Qed.

Lemma mul_exact a b : in_range (a * b) -> mul a b = a * b.
Proof. apply wrap_in_range. Qed.

Lemma div2_exact a : in_range a -> div a 2 = a `quot` 2.
Proof. intros Ha. apply wrap_in_range, quot2_range, Ha. Qed.

End CIntFacts.

(** ** Degrees and shapes *)

(** The degree computed from one extent, without overflow. *)
Lemma degree_of_extent d :
  CInt.int_min < d <= CInt.int_max ->
  CInt.div (CInt.sub d 1) 2 = (d - 1) `quot` 2.
Proof.
  intros Hd.
  assert (Hr : CInt.in_range (d - 1)) by (unfold CInt.in_range; lia).
  rewrite CIntFacts.sub_exact by exact Hr. by apply CIntFacts.div2_exact.
Qed.

Lemma quot_odd l : 0 <= l -> (2 * l + 1 - 1) `quot` 2 = l.
Proof.
  intros Hl. replace (2 * l + 1 - 1) with (l * 2) by lia.
  apply Z.quot_mul. lia.
Qed.

Lemma quot_even l : 0 <= l -> (2 * l + 2 - 1) `quot` 2 = l.
Proof.
  intros Hl. rewrite Z.quot_div_nonneg by lia.
  symmetry. apply (Z.div_unique _ _ _ 1); lia.
Qed.

Lemma getl1_at x d :
  at_index (dims (base x)) 1 = Some d ->
  CInt.int_min < d <= CInt.int_max ->
  getl1 x = Some ((d - 1) `quot` 2).
Proof.
  intros Hd Hr. unfold getl1. rewrite Hd. simpl.
  by rewrite degree_of_extent.
Qed.

Lemma getl2_at x d :
  at_index (dims (base x)) 2 = Some d ->
  CInt.int_min < d <= CInt.int_max ->
  getl2 x = Some ((d - 1) `quot` 2).
Proof.
  intros Hd Hr. unfold getl2. rewrite Hd. simpl.
  by rewrite degree_of_extent.
Qed.

(** C1. For every view over a 4-dimensional tensor whose extents
    [dims[1]], [dims[2]] are ints above [INT_MIN], [getl1()] returns
    [(dims[1]-1)/2] and [getl2()] returns [(dims[2]-1)/2], with the
    division of C++ that truncates toward zero.  The degrees are derived
    from the shape alone: two views of equal [dims] report equal degrees,
    and the view object holds nothing beside its tensor-view base. *)
Theorem C1_degrees_from_shape (x : SO3bipartView) (d0 d1 d2 d3 : Z) :
  dims (base x) = [d0; d1; d2; d3] ->
  CInt.int_min < d1 <= CInt.int_max ->
  CInt.int_min < d2 <= CInt.int_max ->
  getl1 x = Some ((d1 - 1) `quot` 2) /\
  getl2 x = Some ((d2 - 1) `quot` 2) /\
  (forall y : SO3bipartView,
      dims (base y) = dims (base x) ->
      getl1 y = getl1 x /\ getl2 y = getl2 x) /\
  x = mkBipart (base x).
Proof.
  intros Hdims H1 H2. split; [|split; [|split]].
  - apply getl1_at; [by rewrite Hdims|done].
  - apply getl2_at; [by rewrite Hdims|done].
  - intros y Hy. unfold getl1, getl2. by rewrite Hy.
  - by destruct x.
Qed.

Lemma C1_degrees_from_shape_witness :
  let x := mkBipart (mkTensorView 0%N [2; 5; 3; 4] [60; 12; 4; 1] 0) in
  getl1 x = Some 2 /\ getl2 x = Some 1.
Proof.
  intros x.
  destruct (C1_degrees_from_shape x 2 5 3 4) as (H1 & H2 & _).
  - reflexivity.
  - unfold CInt.int_min, CInt.int_max. lia.
  - unfold CInt.int_min, CInt.int_max. lia.
  - split; [exact H1 | exact H2].
Defined.

(** C8. The map from extents to degrees is not injective.  For every
    degree [l] (with [2*l+2] an [int]), a view whose [dims[1]] is the
    odd extent [2*l+1] reports [getl1() == l], and a view whose [dims[1]]
    is the even extent [2*l+2] reports the same [l]: it returns, it does
    not fail.  Likewise [getl2()] on [dims[2]]. *)
Theorem C8_degree_not_injective (l : Z) (x y : SO3bipartView) :
  0 <= l -> 2 * l + 2 <= CInt.int_max ->
  (at_index (dims (base x)) 1 = Some (2 * l + 1) -> getl1 x = Some l) /\
  (at_index (dims (base y)) 1 = Some (2 * l + 2) -> getl1 y = Some l) /\
  (at_index (dims (base x)) 2 = Some (2 * l + 1) -> getl2 x = Some l) /\
  (at_index (dims (base y)) 2 = Some (2 * l + 2) -> getl2 y = Some l).
Proof.
  intros Hl Hmax.
  assert (Hmin : CInt.int_min < 0) by (unfold CInt.int_min; lia).
  repeat split; intros Hd.
  - rewrite (getl1_at x _ Hd) by lia. by rewrite quot_odd.
  - rewrite (getl1_at y _ Hd) by lia. by rewrite quot_even.
  - rewrite (getl2_at x _ Hd) by lia. by rewrite quot_odd.
  - rewrite (getl2_at y _ Hd) by lia. by rewrite quot_even.
Qed.

Lemma C8_degree_not_injective_witness :
  let x := mkBipart (mkTensorView 0%N [1; 7; 7; 2] [98; 14; 2; 1] 0) in
  let y := mkBipart (mkTensorView 0%N [1; 8; 8; 2] [128; 16; 2; 1] 0) in
  dims (base x) <> dims (base y) /\
  getl1 x = Some 3 /\ getl1 y = Some 3 /\
  getl2 x = Some 3 /\ getl2 y = Some 3.
Proof.
  intros x y.
  destruct (C8_degree_not_injective 3 x y) as (H1 & H2 & H3 & H4).
  - lia.
  - unfold CInt.int_max. lia.
  - split; [discriminate|].
    split; [apply H1; reflexivity|].
    split; [apply H2; reflexivity|].
    split; [apply H3; reflexivity|apply H4; reflexivity].
Defined.

(** C9. The conversion of a view over a 4-dimensional tensor to
    [Ctensor4_view] keeps the four extents, passes two times each stride
    (no doubling leaves the range of [int]), and passes the device of the
    view; the storage is the same address and the complex offset is 1. *)
Theorem C9_Ctensor4_view_layout (x : SO3bipartView)
    (d0 d1 d2 d3 s0 s1 s2 s3 : Z) :
  dims (base x) = [d0; d1; d2; d3] ->
  strides (base x) = [s0; s1; s2; s3] ->
  Forall (fun s => CInt.in_range (2 * s)) [s0; s1; s2; s3] ->
  exists c : Ctensor4_view,
    to_Ctensor4_view x = Some c /\
    c4_dims c = [d0; d1; d2; d3] /\
    c4_strides c = [2 * s0; 2 * s1; 2 * s2; 2 * s3] /\
    c4_dev c = device (base x) /\
    c4_arr c = arr (base x) /\
    c4_coffs c = 1.
Proof.
  intros Hd Hs Hr.
  apply Forall_cons in Hr as [R0 Hr]. apply Forall_cons in Hr as [R1 Hr].
  apply Forall_cons in Hr as [R2 Hr]. apply Forall_cons in Hr as [R3 _].
  eexists. unfold to_Ctensor4_view. rewrite Hd, Hs. simpl.
  split; [reflexivity|]. simpl.
  rewrite !CIntFacts.mul_exact by assumption. done.
Qed.

Lemma C9_Ctensor4_view_layout_witness :
  let x := mkBipart (mkTensorView 16%N [2; 5; 3; 4] [60; 12; 4; 1] 1) in
  to_Ctensor4_view x
  = Some (mkCtensor4 16%N [2; 5; 3; 4] [120; 24; 8; 2] 1 1).
Proof.
  intros x.
  destruct (C9_Ctensor4_view_layout x 2 5 3 4 60 12 4 1)
    as (c & Hc & _).
  - reflexivity.
  - reflexivity.
  - repeat constructor; unfold CInt.int_min, CInt.int_max; lia.
  - rewrite Hc. vm_compute in Hc. congruence.
Defined.


(** ** Construction of a view *)

(** C5. Constructing an [SO3bipartView] from a tensor view is
    non-owning.  When [src] names a live tensor view [x] and [self] is
    another object, the construction succeeds; the new view has the data
    pointer, the [dims] and the [strides] of [x]; the element storage is
    the same heap, nothing is copied; the source object and every other
    object are as before. *)
Theorem C5_construction_aliases {T : Type}
    (m : Memory T) (self src : oid) (x : BatchedTensorView) :
  objects m !! src = Some x ->
  self <> src ->
  exists (m' : Memory T) (v : BatchedTensorView),
    construct_SO3bipartView self src m = Some m' /\
    objects m' !! self = Some v /\
    arr v = arr x /\ dims v = dims x /\ strides v = strides x /\
    heap m' = heap m /\
    objects m' !! src = Some x /\
    (forall o : oid, o <> self -> objects m' !! o = objects m !! o).
Proof.
  intros Hsrc Hne. unfold construct_SO3bipartView. rewrite Hsrc. simpl.
  eexists _, _. split; [reflexivity|]. simpl.
  split; [apply lookup_insert_eq|].
  repeat split.
  - rewrite lookup_insert_ne by done. exact Hsrc.
  - intros o Ho. by rewrite lookup_insert_ne.
Qed.

(** ** Runs of single calls *)

Section RunFacts.
Context {E : Type -> Type} {W : Type}.
Variable h : forall X, E X -> W -> outcome X * W.

Lemma run_call {X : Type} (e : E X) (w : W) :
  run h (call e) w = run_native h e w.
Proof.
  unfold call, run_native. simpl.
  by destruct (h X e w) as [[x | ex] w1].
Qed.

Lemma run_native_log {X : Type} (e : E X) (w : W) :
  length (run_native h e w).1.1 = 1%nat.
Proof. unfold run_native. by destruct (h X e w). Qed.

(** Sequencing: the log of [x ← p; f x] is the log of [p] followed, when
    [p] returns, by the log of the rest. *)
Lemma run_bind {A B : Type} (p : Prog E A) (f : A -> Prog E B) (w : W) :
  run h (p ≫= f) w =
    match run h p w with
    | (t, Returned a, w1) =>
        let '(t', o, w2) := run h (f a) w1 in (t ++ t', o, w2)
    | (t, Raised ex, w1) => (t, Raised ex, w1)
    end.
Proof.
  unfold mbind, Prog_bind. revert w.
  induction p as [r | X e k IH]; intros w; simpl.
  - by destruct (run h (f r) w) as [[t o] w2].
  - destruct (h X e w) as [[x | ex] w1]; [|done].
    rewrite IH. destruct (run h (k x) w1) as [[t [a | ex]] w2]; [|done].
    by destruct (run h (f a) w2) as [[t' o] w3].
Qed.

End RunFacts.

(** ** The CG-transform members *)

Section AdapterFacts.
Context {SO3partView Ctensor3_view W : Type}.
Variable to_Ctensor3_view : SO3partView -> Ctensor3_view.
Variable bbatch : BatchedTensorView -> Z -> BatchedTensorView.
Variable getb : BatchedTensorView -> Z.
Variable h : forall X, @KernelE Ctensor3_view X -> W -> outcome X * W.

Lemma pure_member_run {R : Type} (o : option R) (p : Prog KernelE R) (w : W) :
  pure_member o = Some p ->
  exists r : R, run h p w = ([], Returned r, w).
Proof.
  unfold pure_member. destruct o as [r|]; simpl; [|done].
  intros [= <-]. by exists r.
Qed.

(** C2. On a view [x] whose conversion to [Ctensor4_view] is [x4], the
    class has exactly two members that reach a CG-transform kernel, and
    both only delegate.  [add_CGtransform_to(r, offs)] runs as the single
    call [SO3part_addCGtransformFn()(Ctensor3_view(r), x4, offs)];
    [add_CGtransform_back(r, offs)] runs as the single call
    [SO3part_addCGtransform_backFn()(x4, Ctensor3_view(r), offs)], the
    arguments in the reverse order; the log, the outcome and the state
    of the world after either are those of the kernel.  Every other
    member returns without a call. *)
Theorem C2_CGtransform_delegation
    (x : SO3bipartView) (x4 : Ctensor4_view)
    (r : SO3partView) (offs : Z) (w : W) :
  to_Ctensor4_view x = Some x4 ->
  (exists p,
      add_CGtransform_to to_Ctensor3_view x r offs = Some p /\
      run h p w =
        run_native h
          (SO3part_addCGtransformFn (to_Ctensor3_view r) x4 offs) w) /\
  (exists p,
      add_CGtransform_back to_Ctensor3_view x r offs = Some p /\
      run h p w =
        run_native h
          (SO3part_addCGtransform_backFn x4 (to_Ctensor3_view r) offs) w) /\
  (forall (R : Type) (m : member R) (p : Prog KernelE R),
      invoke to_Ctensor3_view bbatch getb x m = Some p ->
      if is_CGtransform m
      then length (run h p w).1.1 = 1%nat
      else exists v : R, run h p w = ([], Returned v, w)).
Proof.
  intros Hx4. split; [|split].
  - unfold add_CGtransform_to. rewrite Hx4. simpl.
    eexists. split; [reflexivity|]. apply run_call.
  - unfold add_CGtransform_back. rewrite Hx4. simpl.
    eexists. split; [reflexivity|]. apply run_call.
  - intros R m p Hp.
    destruct m; cbn [invoke is_CGtransform default] in *;
      eauto using pure_member_run.
    + unfold add_CGtransform_to in Hp. rewrite Hx4 in Hp. simpl in Hp.
      injection Hp as <-. rewrite run_call. apply run_native_log.
    + unfold add_CGtransform_back in Hp. rewrite Hx4 in Hp. simpl in Hp.
      injection Hp as <-. rewrite run_call. apply run_native_log.
Qed.

End AdapterFacts.

(** ** The bindings *)

Section BindingFacts.
Context {SO3part Tensor W : Type}.
Variable h : forall X, @NativeE SO3part Tensor X -> W -> outcome X * W.

(** C3. The binding layer validates nothing and translates no error.  For all arguments and every behaviour of the native side,
    the constructors [raw], [zero] and [gaussian], the constructor from a
    tensor and the [CGproduct] lambda run as the one native call on the
    very arguments they were given: same log, same outcome (the value
    returned or the exception raised) and same state of the world.  An
    omitted [n] or [device] is the declared default, 1 or 0. *)
Theorem C3_bindings_forward
    (b l n dev : Z) (t : Tensor) (x y : SO3part) (w : W) :
  run h (raw_lambda b l n dev) w = run_native h (SO3part_raw b l n dev) w /\
  run h (zero_lambda b l n dev) w = run_native h (SO3part_zero b l n dev) w /\
  run h (gaussian_lambda b l n dev) w
    = run_native h (SO3part_gaussian b l n dev) w /\
  run h (CGproduct_lambda x y l) w = run_native h (CGproduct x y l) w /\
  run h (binding (py_raw b l (Some n) (Some dev))) w
    = run_native h (SO3part_raw b l n dev) w /\
  run h (binding (py_zero b l (Some n) (Some dev))) w
    = run_native h (SO3part_zero b l n dev) w /\
  run h (binding (py_gaussian b l (Some n) (Some dev))) w
    = run_native h (SO3part_gaussian b l n dev) w /\
  run h (binding (py_init t)) w = run_native h (SO3part_of_Tensor t) w /\
  run h (binding (py_CGproduct x y l)) w = run_native h (CGproduct x y l) w /\
  run h (binding (py_raw b l None None)) w
    = run_native h (SO3part_raw b l 1 0) w /\
  run h (binding (py_zero b l None None)) w
    = run_native h (SO3part_zero b l 1 0) w /\
  run h (binding (py_gaussian b l None None)) w
    = run_native h (SO3part_gaussian b l 1 0) w.
Proof.
  repeat split; apply run_call.
Qed.

(** C10. For every [SO3part] object, [__len__] returns the constant 1:
    whatever the native side would answer for the object's batch size,
    degree or channel count, the binding asks nothing of it. *)
Theorem C10_len_is_one (obj : SO3part) (w : W) :
  run h (binding (py___len__ obj)) w = ([], Returned 1, w).
Proof. reflexivity. Qed.

End BindingFacts.

(** ** [SO3type] *)

Section SO3typeFacts.
Variable type_str : SO3type -> string -> string.
Variable type_repr : SO3type -> string -> string.
Variable type_CGproduct : SO3type -> SO3type -> Z -> SO3type.





End SO3typeFacts.

(** ** The test driver and the lifetime of the session *)

(** Follows a run call by call: each call returns, or the run ends with
    an exception and cannot be the returning run at hand. *)
Ltac step_through h H :=
  repeat match type of H with
  | context [h ?X ?e ?w] =>
      let x := fresh "x" in
      let w1 := fresh "w" in
      destruct (h X e w) as [[x | ?] w1]; cbn in H; [| discriminate H]
  end.

Section DriverFacts.
Context {SO3vecB GElibSession W : Type}.
Variable h : forall X, @DriverE SO3vecB GElibSession X -> W -> outcome X * W.

(** The log of a run of [main] that returns. *)
Lemma main_log (w0 w' : W) (tr : list (step DriverE)) (r : Z) :
  run h main w0 = (tr, Returned r, w') ->
  exists (s : GElibSession) (u v p ug vg pg : SO3vecB),
    r = 0 /\
    tr =
      [ Step GElibSession_ctor (Returned s);
        Step cout_endl (Returned tt);
        Step (SO3vecB_gaussian 1 [2; 2; 2]) (Returned u);
        Step (SO3vecB_gaussian 1 [2; 2; 2]) (Returned v);
        Step (printl "u" u) (Returned tt); Step cout_endl (Returned tt);
        Step (printl "v" v) (Returned tt); Step cout_endl (Returned tt);
        Step (SO3vecB_CGproduct u v 2) (Returned p);
        Step (cout_SO3vecB p) (Returned tt); Step cout_endl (Returned tt);
        Step cout_endl (Returned tt);
        Step (SO3vecB_to_device u 1) (Returned ug);
        Step (SO3vecB_to_device v 1) (Returned vg);
        Step (printl "ug" ug) (Returned tt); Step cout_endl (Returned tt);
        Step (printl "vg" vg) (Returned tt); Step cout_endl (Returned tt);
        Step (SO3vecB_CGproduct ug vg 2) (Returned pg);
        Step (cout_SO3vecB pg) (Returned tt); Step cout_endl (Returned tt);
        Step (SO3vecB_dtor pg) (Returned tt);
        Step (SO3vecB_dtor vg) (Returned tt);
        Step (SO3vecB_dtor ug) (Returned tt);
        Step (SO3vecB_dtor p) (Returned tt);
        Step (SO3vecB_dtor v) (Returned tt);
        Step (SO3vecB_dtor u) (Returned tt);
        Step (GElibSession_dtor s) (Returned tt) ].
Proof.
  intros H. unfold main in H. cbn in H.
  step_through h H.
  repeat match goal with x : unit |- _ => destruct x end.
  injection H as <- <- _.
  by eexists _, _, _, _, _, _, _.
Qed.

(** C6. A run of the test driver that returns performs exactly these
    calls into the SO(3) library, in this order: two [gaussian] vectors
    of type [{2,2,2}] and batch 1, with no device named; the [CGproduct]
    of the two with [maxl=2]; the transfer of the first and of the second
    to device 1; the [CGproduct] of the two transferred vectors with
    [maxl=2].  No result is checked: whatever the library returns, [main]
    returns 0. *)
Theorem C6_driver_steps (w0 w' : W) (tr : list (step DriverE)) (r : Z) :
  run h main w0 = (tr, Returned r, w') ->
  r = 0 /\
  exists u v p ug vg pg : SO3vecB,
    List.filter is_api tr =
      [ Step (SO3vecB_gaussian 1 [2; 2; 2]) (Returned u);
        Step (SO3vecB_gaussian 1 [2; 2; 2]) (Returned v);
        Step (SO3vecB_CGproduct u v 2) (Returned p);
        Step (SO3vecB_to_device u 1) (Returned ug);
        Step (SO3vecB_to_device v 1) (Returned vg);
        Step (SO3vecB_CGproduct ug vg 2) (Returned pg) ].
Proof.
  intros H.
  destruct (main_log _ _ _ _ H) as (s & u & v & p & ug & vg & pg & -> & ->).
  split; [done|]. by exists u, v, p, ug, vg, pg.
Qed.

End DriverFacts.

(** On a machine without a second device the run ends at the first
    transfer, with the exception the library raised. *)
Example main_one_device :
  let '(tr, o, _) := run Sample.driver_side_one_device main 0%nat in
  o = Raised "no such device" /\
  last tr = Some (Step (SO3vecB_to_device 0%nat 1) (Raised "no such device")) /\
  List.filter is_session_dtor tr = [].
Proof. vm_compute. done. Qed.

Section SessionFacts.
Context {SO3part Tensor Wn : Type}.
Variable hn : forall X, @NativeE SO3part Tensor X -> Wn -> outcome X * Wn.
Context {SO3vecB GElibSession Wd : Type}.
Variable hd : forall X, @DriverE SO3vecB GElibSession X -> Wd -> outcome X * Wd.

Lemma script_events_session_free (script : list invocation) (w : Wn) :
  Forall session_free (script_events hn script w).
Proof.
  revert w. induction script as [|i script IH]; intros w; simpl.
  - constructor.
  - destruct i as [R c | R op t].
    + destruct (run hn (binding c) w) as [[t o] w1].
      constructor; [done|]. apply Forall_app. split; [|apply IH].
      apply Forall_fmap, Forall_forall. by intros s _.
    + constructor; [done | apply IH].
Qed.

Lemma module_init_session_free :
  Forall session_free (@module_init SO3part Tensor).
Proof.
  unfold module_init. apply Forall_fmap, Forall_forall. by intros d _.
Qed.

(** C7. One session object, for the whole life of the process.  In the
    process that hosts the extension module, whatever bound operations a
    Python program invokes and however the native side behaves, the
    events are: the construction of the global [session], then the
    registrations of the module and the bound operations, none of which
    constructs or destroys a session, then the destruction of [session].
    In a run of the test driver that returns, the first step constructs
    the session, the last step destroys that same session, and no step in
    between constructs or destroys one. *)
Theorem C7_single_session
    (script : list invocation) (wn : Wn)
    (w0 w' : Wd) (tr : list (step DriverE)) (r : Z) :
  run hd main w0 = (tr, Returned r, w') ->
  (process_events hn script wn =
     Construct "GElib::GElibSession" "session"
       :: (module_init ++ script_events hn script wn)
       ++ [Destroy "GElib::GElibSession" "session"] /\
   Forall session_free (module_init ++ script_events hn script wn)) /\
  (exists (s : GElibSession) (rest : list (step DriverE)),
      tr = Step GElibSession_ctor (Returned s)
             :: rest ++ [Step (GElibSession_dtor s) (Returned tt)] /\
      Forall (fun e => is_session_ctor e = false /\ is_session_dtor e = false)
        rest).
Proof.
  intros H. split.
  - split.
    + unfold process_events, static_init, static_fini.
      by rewrite <- app_assoc.
    + apply Forall_app. split.
      * apply module_init_session_free.
      * apply script_events_session_free.
  - destruct (main_log _ _ _ _ _ H)
      as (s & u & v & p & ug & vg & pg & -> & ->).
    match goal with
    | |- exists s' rest, ?l = _ /\ _ =>
        exists s, (List.removelast (List.tl l))
    end.
    split; [reflexivity | cbn; repeat constructor].
Qed.

End SessionFacts.

(** ** The theorems on sample inputs *)

Lemma C2_CGtransform_delegation_witness :
  let x4 := mkCtensor4 16%N [2; 5; 3; 4] [120; 24; 8; 2] 1 0 in
  (exists p,
      add_CGtransform_to arr Sample.bipart Sample.part 3 = Some p /\
      run Sample.kernel_side p 0%nat =
        ([Step (SO3part_addCGtransformFn 512%N x4 3) (Returned tt)],
         Returned tt, 1%nat)) /\
  (exists p,
      add_CGtransform_back arr Sample.bipart Sample.part 3 = Some p /\
      run Sample.kernel_side p 0%nat =
        ([Step (SO3part_addCGtransform_backFn x4 512%N 3) (Returned tt)],
         Returned tt, 1%nat)).
Proof.
  intros x4.
  destruct (C2_CGtransform_delegation arr (fun x _ => x) (fun _ => 2)
              Sample.kernel_side Sample.bipart x4 Sample.part 3 0%nat)
    as ((p & Hp & Hrun) & (q & Hq & Hrun') & _).
  - reflexivity.
  - split.
    + exists p. split; [exact Hp | rewrite Hrun; reflexivity].
    + exists q. split; [exact Hq | rewrite Hrun'; reflexivity].
Defined.



Lemma C5_construction_aliases_witness :
  exists (m' : Memory Z) (v : BatchedTensorView),
    construct_SO3bipartView 2%N 1%N Sample.memory = Some m' /\
    objects m' !! 2%N = Some v /\
    arr v = 16%N /\ dims v = [2; 5; 3; 4] /\ strides v = [60; 12; 4; 1] /\
    heap m' = heap Sample.memory /\
    objects m' !! 1%N = Some (base Sample.bipart).
Proof.
  destruct (C5_construction_aliases Sample.memory 2%N 1%N (base Sample.bipart))
    as (m' & v & Hc & Hv & Ha & Hd & Hs & Hh & Hsrc & _).
  - reflexivity.
  - discriminate.
  - exists m', v. repeat split; assumption.
Defined.

Lemma C6_driver_steps_witness :
  exists u v p ug vg pg : nat,
    List.filter is_api (run Sample.driver_side main 0%nat).1.1 =
      [ Step (SO3vecB_gaussian 1 [2; 2; 2]) (Returned u);
        Step (SO3vecB_gaussian 1 [2; 2; 2]) (Returned v);
        Step (SO3vecB_CGproduct u v 2) (Returned p);
        Step (SO3vecB_to_device u 1) (Returned ug);
        Step (SO3vecB_to_device v 1) (Returned vg);
        Step (SO3vecB_CGproduct ug vg 2) (Returned pg) ].
Proof.
  apply (C6_driver_steps Sample.driver_side 0%nat 6%nat
           (run Sample.driver_side main 0%nat).1.1 0).
  reflexivity.
Defined.

Lemma C7_single_session_witness :
  let script := [on_part _ (py_raw 1 2 None None);
                 on_part _ (py___len__ 0%nat);
                 on_type _ t_maxl [2; 2; 2]] in
  head (process_events Sample.native_side script 0%nat)
    = Some (Construct "GElib::GElibSession" "session") /\
  exists (s : unit) (rest : list (step DriverE)),
    (run Sample.driver_side main 0%nat).1.1 =
      Step GElibSession_ctor (Returned s)
        :: rest ++ [Step (GElibSession_dtor s) (Returned tt)] /\
    Forall (fun e => is_session_ctor e = false /\ is_session_dtor e = false)
      rest.
Proof.
  intros script.
  destruct (C7_single_session Sample.native_side Sample.driver_side
              script 0%nat 0%nat 6%nat
              (run Sample.driver_side main 0%nat).1.1 0)
    as ((Hev & _) & Hdrv).
  - reflexivity.
  - split; [by rewrite Hev | exact Hdrv].
Defined.

(* ===================================================================== *)
(** * Further properties of the sources *)
(* ===================================================================== *)

(** ** Degrees, extents and bounds of the view *)

Lemma degree_bounds d :
  0 <= d <= CInt.int_max ->
  let l := CInt.div (CInt.sub d 1) 2 in
  0 <= l /\ (d = 0 /\ l = 0 \/ 2 * l + 1 <= d <= 2 * l + 2).
Proof.
  intros Hd l. subst l.
  assert (Hmin : CInt.int_min < 0) by (unfold CInt.int_min; lia).
  rewrite degree_of_extent by lia.
  destruct (decide (d = 0)) as [-> | Hnz].
  - change ((0 - 1) `quot` 2) with 0. lia.
  - rewrite Z.quot_div_nonneg by lia.
    pose proof (Z.div_mod (d - 1) 2 ltac:(lia)).
    pose proof (Z.mod_pos_bound (d - 1) 2 ltac:(lia)). lia.
Qed.

(** X1. On a view whose extents [dims[1]], [dims[2]] are non-negative
    ints, the degrees [getl1()] and [getl2()] report are never negative,
    and a block of the reported degree fits the extent: [2*l+1 <= d <=
    2*l+2].  The one exception is the empty extent 0, for which the
    truncating division gives degree 0, not -1. *)
Theorem X1_degree_fits_extent (x : SO3bipartView) (d1 d2 : Z) :
  at_index (dims (base x)) 1 = Some d1 ->
  at_index (dims (base x)) 2 = Some d2 ->
  0 <= d1 <= CInt.int_max ->
  0 <= d2 <= CInt.int_max ->
  exists l1 l2 : Z,
    getl1 x = Some l1 /\ getl2 x = Some l2 /\
    0 <= l1 /\ (d1 = 0 /\ l1 = 0 \/ 2 * l1 + 1 <= d1 <= 2 * l1 + 2) /\
    0 <= l2 /\ (d2 = 0 /\ l2 = 0 \/ 2 * l2 + 1 <= d2 <= 2 * l2 + 2).
Proof.
  intros H1 H2 R1 R2.
  exists (CInt.div (CInt.sub d1 1) 2), (CInt.div (CInt.sub d2 1) 2).
  unfold getl1, getl2. rewrite H1, H2. simpl.
  pose proof (degree_bounds d1 R1) as [? ?].
  pose proof (degree_bounds d2 R2) as [? ?].
  by repeat split.
Qed.

Lemma X1_degree_fits_extent_witness :
  let x := mkBipart (mkTensorView 0%N [3; 0; 6; 1] [0; 6; 1; 1] 0) in
  getl1 x = Some 0 /\ getl2 x = Some 2.
Proof.
  intros x.
  destruct (X1_degree_fits_extent x 0 6) as (l1 & l2 & H1 & H2 & _).
  - reflexivity.
  - reflexivity.
  - unfold CInt.int_max. lia.
  - unfold CInt.int_max. lia.
  - rewrite H1, H2. vm_compute in H1, H2. split; congruence.
Defined.

(** X2. The degree grows with the extent: when the extents [dims[1]]
    and [dims[2]] of one view are ints above [INT_MIN], negative ones
    included, and no larger than those of another view, its [getl1()]
    and [getl2()] are no larger either. *)
Theorem X2_degree_monotone (x y : SO3bipartView) (d1 d1' d2 d2' : Z) :
  at_index (dims (base x)) 1 = Some d1 ->
  at_index (dims (base y)) 1 = Some d1' ->
  at_index (dims (base x)) 2 = Some d2 ->
  at_index (dims (base y)) 2 = Some d2' ->
  CInt.int_min < d1 -> d1 <= d1' -> d1' <= CInt.int_max ->
  CInt.int_min < d2 -> d2 <= d2' -> d2' <= CInt.int_max ->
  exists l1 l1' l2 l2' : Z,
    getl1 x = Some l1 /\ getl1 y = Some l1' /\ l1 <= l1' /\
    getl2 x = Some l2 /\ getl2 y = Some l2' /\ l2 <= l2'.
Proof.
  intros Hx1 Hy1 Hx2 Hy2 ? ? ? ? ? ?.
  exists ((d1 - 1) `quot` 2), ((d1' - 1) `quot` 2),
         ((d2 - 1) `quot` 2), ((d2' - 1) `quot` 2).
  rewrite (getl1_at x d1), (getl1_at y d1') by (done || lia).
  rewrite (getl2_at x d2), (getl2_at y d2') by (done || lia).
  repeat split; apply Z.quot_le_mono; lia.
Qed.

Lemma X2_degree_monotone_witness :
  let x := mkBipart (mkTensorView 0%N [1; -3; 2; 1] [] 0) in
  let y := mkBipart (mkTensorView 0%N [1; 4; 9; 1] [] 0) in
  exists l1 l1' l2 l2' : Z,
    getl1 x = Some l1 /\ getl1 y = Some l1' /\ l1 <= l1' /\
    getl2 x = Some l2 /\ getl2 y = Some l2' /\ l2 <= l2'.
Proof.
  intros x y.
  apply (X2_degree_monotone x y (-3) 4 2 9);
    try reflexivity; unfold CInt.int_min, CInt.int_max; lia.
Defined.

(** ** The conversion to [Ctensor4_view] *)

Lemma at_index_is_Some (v : list Z) (i : nat) :
  is_Some (at_index v i) <-> (i < length v)%nat.
Proof. unfold at_index. apply lookup_lt_is_Some. Qed.

Lemma at_index_4 (v : list Z) :
  (4 <= length v)%nat ->
  exists a b c d rest, v = a :: b :: c :: d :: rest.
Proof.
  destruct v as [|a [|b [|c [|d rest]]]]; simpl; try lia.
  intros _. by exists a, b, c, d, rest.
Qed.

Lemma to_Ctensor4_view_defined (x : SO3bipartView) :
  is_Some (to_Ctensor4_view x) <->
  (4 <= length (dims (base x)))%nat /\ (4 <= length (strides (base x)))%nat.
Proof.
  split.
  - intros [c Hc]. unfold to_Ctensor4_view, at_index in Hc.
    destruct (dims (base x)) as [|d0 [|d1 [|d2 [|d3 dr]]]];
      try discriminate Hc;
      destruct (strides (base x)) as [|s0 [|s1 [|s2 [|s3 sr]]]];
      try discriminate Hc.
    simpl. lia.
  - intros [Hd Hs].
    destruct (at_index_4 _ Hd) as (d0 & d1 & d2 & d3 & dr & Ed).
    destruct (at_index_4 _ Hs) as (s0 & s1 & s2 & s3 & sr & Es).
    unfold to_Ctensor4_view. rewrite Ed, Es. simpl. eauto.
Qed.

(** X3. The conversion reads the first four extents and the first four
    strides and nothing beyond: it is defined exactly on the views with
    at least four of each, and its result always has four extents, the
    leading four of the view unchanged, four strides and complex offset
    1, also when the tensor has more than four dimensions. *)
Theorem X3_conversion_bounds (x : SO3bipartView) :
  (is_Some (to_Ctensor4_view x) <->
   (4 <= length (dims (base x)))%nat /\
   (4 <= length (strides (base x)))%nat) /\
  (forall c : Ctensor4_view,
      to_Ctensor4_view x = Some c ->
      c4_dims c = take 4 (dims (base x)) /\
      length (c4_strides c) = 4%nat /\
      c4_coffs c = 1 /\
      c4_arr c = arr (base x) /\
      c4_dev c = device (base x)).
Proof.
  split; [apply to_Ctensor4_view_defined|].
  intros c Hc.
  assert (Hsome : is_Some (to_Ctensor4_view x)) by (by rewrite Hc).
  apply to_Ctensor4_view_defined in Hsome as [Hd Hs].
  destruct (at_index_4 _ Hd) as (d0 & d1 & d2 & d3 & dr & Ed).
  destruct (at_index_4 _ Hs) as (s0 & s1 & s2 & s3 & sr & Es).
  unfold to_Ctensor4_view in Hc. rewrite Ed, Es in Hc. simpl in Hc.
  injection Hc as <-. rewrite Ed. done.
Qed.

(** X4. On views over 4-dimensional tensors whose doubled strides stay in
    the range of [int], the conversion loses nothing: two views with the
    same [Ctensor4_view] are the same view. *)
Theorem X4_conversion_injective (x y : SO3bipartView) :
  length (dims (base x)) = 4%nat -> length (strides (base x)) = 4%nat ->
  length (dims (base y)) = 4%nat -> length (strides (base y)) = 4%nat ->
  Forall (fun s => CInt.in_range (2 * s)) (strides (base x)) ->
  Forall (fun s => CInt.in_range (2 * s)) (strides (base y)) ->
  to_Ctensor4_view x = to_Ctensor4_view y ->
  x = y.
Proof.
  destruct x as [[ax dx sx vx]], y as [[ay dy sy vy]]. simpl.
  intros Hdx Hsx Hdy Hsy Rx Ry.
  destruct dx as [|d0 [|d1 [|d2 [|d3 [|? ?]]]]]; try discriminate.
  destruct sx as [|s0 [|s1 [|s2 [|s3 [|? ?]]]]]; try discriminate.
  destruct dy as [|e0 [|e1 [|e2 [|e3 [|? ?]]]]]; try discriminate.
  destruct sy as [|t0 [|t1 [|t2 [|t3 [|? ?]]]]]; try discriminate.
  repeat match goal with
         | H : Forall _ (_ :: _) |- _ => apply Forall_cons in H as [? H]
         end.
  unfold to_Ctensor4_view. simpl.
  rewrite !CIntFacts.mul_exact by assumption.
  unfold ptr_as. intros [= -> -> -> -> -> ? ? ? ? ->].
  repeat f_equal; lia.
Qed.

Lemma X4_conversion_injective_witness :
  Sample.bipart
  = mkBipart (mkTensorView 16%N [2; 5; 3; 4] [60; 12; 4; 1] 0).
Proof.
  apply X4_conversion_injective; try reflexivity;
    repeat constructor; unfold CInt.int_min, CInt.int_max; simpl; lia.
Defined.

(** Past four dimensions the conversion does lose the trailing extents. *)
Example conversion_drops_fifth_extent :
  let x := mkBipart (mkTensorView 0%N [1; 3; 3; 2; 5] [90; 30; 10; 5; 1] 0) in
  let y := mkBipart (mkTensorView 0%N [1; 3; 3; 2; 7] [90; 30; 10; 5; 1] 0) in
  x <> y /\ to_Ctensor4_view x = to_Ctensor4_view y.
Proof. split; [discriminate | reflexivity]. Qed.

(** X5. The shape a kernel receives carries the degrees: whenever the
    conversion is defined, [getl1()], [getl2()] and [getn()] are defined
    too and are what the same formulas give on the extents of the
    [Ctensor4_view]. *)
Theorem X5_degrees_of_converted (x : SO3bipartView) (c : Ctensor4_view) :
  to_Ctensor4_view x = Some c ->
  exists e1 e2 e3 : Z,
    c4_dims c !! 1%nat = Some e1 /\
    c4_dims c !! 2%nat = Some e2 /\
    c4_dims c !! 3%nat = Some e3 /\
    getl1 x = Some (CInt.div (CInt.sub e1 1) 2) /\
    getl2 x = Some (CInt.div (CInt.sub e2 1) 2) /\
    getn x = Some e3.
Proof.
  intros Hc.
  assert (Hsome : is_Some (to_Ctensor4_view x)) by (by rewrite Hc).
  apply to_Ctensor4_view_defined in Hsome as [Hd Hs].
  destruct (at_index_4 _ Hd) as (d0 & d1 & d2 & d3 & dr & Ed).
  destruct (at_index_4 _ Hs) as (s0 & s1 & s2 & s3 & sr & Es).
  unfold to_Ctensor4_view in Hc. rewrite Ed, Es in Hc. simpl in Hc.
  injection Hc as <-. exists d1, d2, d3.
  unfold getl1, getl2, getn. rewrite Ed. done.
Qed.

Lemma X5_degrees_of_converted_witness :
  getl1 Sample.bipart = Some 2 /\ getl2 Sample.bipart = Some 1 /\
  getn Sample.bipart = Some 4.
Proof.
  destruct (X5_degrees_of_converted Sample.bipart
              (mkCtensor4 16%N [2; 5; 3; 4] [120; 24; 8; 2] 1 0))
    as (e1 & e2 & e3 & H1 & H2 & H3 & G1 & G2 & G3).
  - reflexivity.
  - injection H1 as <-. injection H2 as <-. injection H3 as <-.
    rewrite G1, G2, G3. repeat split; reflexivity.
Defined.

Lemma X3_conversion_bounds_witness :
  to_Ctensor4_view
    (mkBipart (mkTensorView 0%N [1; 3; 3; 2; 5] [90; 30; 10; 5; 1] 0))
  = Some (mkCtensor4 0%N [1; 3; 3; 2] [180; 60; 20; 10] 1 0) /\
  to_Ctensor4_view (mkBipart (mkTensorView 0%N [1; 3; 3] [9; 3; 1] 0)) = None.
Proof.
  split.
  - reflexivity.
  - destruct (X3_conversion_bounds
                (mkBipart (mkTensorView 0%N [1; 3; 3] [9; 3; 1] 0)))
      as [[Hdef _] _].
    destruct (to_Ctensor4_view _) as [c|] eqn:E; [|reflexivity].
    destruct (Hdef (ex_intro _ c eq_refl)) as [Hlen _].
    simpl in Hlen. lia.
Defined.

(** ** Which members are defined on which views *)

Section MemberFacts.
Context {SO3partView Ctensor3_view : Type}.
Variable to_Ctensor3_view : SO3partView -> Ctensor3_view.
Variable bbatch : BatchedTensorView -> Z -> BatchedTensorView.
Variable getb : BatchedTensorView -> Z.

Lemma getl1_defined x : is_Some (getl1 x) <-> (2 <= length (dims (base x)))%nat.
Proof.
  unfold getl1. rewrite <- (at_index_is_Some (dims (base x)) 1).
  destruct (at_index (dims (base x)) 1); simpl; split; eauto.
Qed.

Lemma getl2_defined x : is_Some (getl2 x) <-> (3 <= length (dims (base x)))%nat.
Proof.
  unfold getl2. rewrite <- (at_index_is_Some (dims (base x)) 2).
  destruct (at_index (dims (base x)) 2); simpl; split; eauto.
Qed.

Lemma getn_defined x : is_Some (getn x) <-> (4 <= length (dims (base x)))%nat.
Proof. unfold getn. apply at_index_is_Some. Qed.

Lemma repr_defined x indent :
  is_Some (repr getb x indent) <-> (4 <= length (dims (base x)))%nat.
Proof.
  rewrite <- getn_defined. unfold repr.
  split.
  - destruct (getl1 x), (getl2 x), (getn x); simpl; eauto;
      intros [? [=]].
  - intros Hn.
    assert (H1 : is_Some (getl1 x)).
    { apply getl1_defined. apply getn_defined in Hn. lia. }
    assert (H2 : is_Some (getl2 x)).
    { apply getl2_defined. apply getn_defined in Hn. lia. }
    destruct H1 as [l1 ->], H2 as [l2 ->], Hn as [n ->]. simpl. eauto.
Qed.

(** X6. Which accesses a member makes decides where it is defined:
    [getl1()] needs two extents, [getl2()] three, [getn()] and [repr()]
    four; the two CG-transforms need four extents and four strides,
    whatever [r] and [offs] are; and on a view with at least four of
    each, every member of the class is defined. *)
Theorem X6_members_defined (x : SO3bipartView) :
  (is_Some (getl1 x) <-> (2 <= length (dims (base x)))%nat) /\
  (is_Some (getl2 x) <-> (3 <= length (dims (base x)))%nat) /\
  (is_Some (getn x) <-> (4 <= length (dims (base x)))%nat) /\
  (forall indent,
      is_Some (repr getb x indent) <-> (4 <= length (dims (base x)))%nat) /\
  (forall r offs,
      is_Some (add_CGtransform_to to_Ctensor3_view x r offs) <->
      (4 <= length (dims (base x)))%nat /\
      (4 <= length (strides (base x)))%nat) /\
  (forall r offs,
      is_Some (add_CGtransform_back to_Ctensor3_view x r offs) <->
      (4 <= length (dims (base x)))%nat /\
      (4 <= length (strides (base x)))%nat) /\
  ((4 <= length (dims (base x)))%nat ->
   (4 <= length (strides (base x)))%nat ->
   forall (R : Type) (m : member R),
     is_Some (invoke to_Ctensor3_view bbatch getb x m)).
Proof.
  assert (Hto : forall r offs,
    is_Some (add_CGtransform_to to_Ctensor3_view x r offs) <->
    is_Some (to_Ctensor4_view x)).
  { intros r offs. unfold add_CGtransform_to.
    destruct (to_Ctensor4_view x); simpl; split; eauto; intros [? [=]]. }
  assert (Hback : forall r offs,
    is_Some (add_CGtransform_back to_Ctensor3_view x r offs) <->
    is_Some (to_Ctensor4_view x)).
  { intros r offs. unfold add_CGtransform_back.
    destruct (to_Ctensor4_view x); simpl; split; eauto; intros [? [=]]. }
  split; [apply getl1_defined|]. split; [apply getl2_defined|].
  split; [apply getn_defined|]. split; [apply repr_defined|].
  split; [intros; rewrite Hto; apply to_Ctensor4_view_defined|].
  split; [intros; rewrite Hback; apply to_Ctensor4_view_defined|].
  intros Hd Hs R m.
  assert (Hpure : forall (A : Type) (o : option A),
             is_Some o -> is_Some (@pure_member Ctensor3_view A o)).
  { intros A o [a ->]. simpl. eauto. }
  destruct m; cbn [invoke].
  - apply Hpure, to_Ctensor4_view_defined. done.
  - apply Hpure, getl1_defined. lia.
  - apply Hpure, getl2_defined. lia.
  - apply Hpure, getn_defined. lia.
  - apply Hpure. eauto.
  - apply Hto, to_Ctensor4_view_defined. done.
  - apply Hback, to_Ctensor4_view_defined. done.
  - apply Hpure, repr_defined. lia.
Qed.

End MemberFacts.

(** ** The text of [repr] *)

Lemma split_at_delimiter (c : ascii) (s1 s2 r1 r2 : string) :
  occurs c s1 = false -> occurs c s2 = false ->
  s1 +:+ String c r1 = s2 +:+ String c r2 ->
  s1 = s2 /\ r1 = r2.
Proof.
  revert s2. induction s1 as [|a s1 IH]; intros [|b s2]; simpl.
  - intros _ _ [= ->]. done.
  - intros _ Hb [= <- _]. by rewrite decide_True in Hb.
  - intros Ha _ [= -> _]. by rewrite decide_True in Ha.
  - intros Ha Hb [= -> H].
    destruct (decide (b = c)); [done|].
    destruct (IH s2 Ha Hb H) as [-> ->]. done.
Qed.

Lemma comma_not_a_digit : not_a_digit ","%char.
Proof. intros n. unfold pretty_N_char. repeat case_match; discriminate. Qed.

Lemma paren_not_a_digit : not_a_digit ")"%char.
Proof. intros n. unfold pretty_N_char. repeat case_match; discriminate. Qed.

Lemma occurs_pretty_N_go (c : ascii) (x : N) (s : string) :
  not_a_digit c -> occurs c s = false -> occurs c (pretty_N_go x s) = false.
Proof.
  intros Hc. revert s.
  induction (N.lt_wf_0 x) as [x _ IH]; intros s Hs.
  destruct (decide (x = 0)%N) as [-> | Hx].
  - by rewrite pretty_N_go_0.
  - rewrite pretty_N_go_step by lia. apply IH.
    + apply N.div_lt; lia.
    + simpl. rewrite decide_False by apply Hc. exact Hs.
Qed.

(** The decimal text of an [int] holds digits and at most a sign. *)
Lemma occurs_to_string (c : ascii) (z : Z) :
  not_a_digit c -> c <> "-"%char -> occurs c (to_string z) = false.
Proof.
  intros Hc Hm. unfold to_string, pretty, pretty_Z.
  assert (Hpos : forall p : positive, occurs c (pretty p) = false).
  { intros p. unfold pretty, pretty_positive, pretty, pretty_N.
    rewrite decide_False by done. by apply occurs_pretty_N_go. }
  destruct z as [|p|p].
  - simpl. rewrite decide_False; [done|].
    intros <-. by apply (Hc 0%N).
  - apply Hpos.
  - simpl. rewrite decide_False by (intros E; by apply Hm). apply Hpos.
Qed.

Section ReprFacts.
Variable getb : BatchedTensorView -> Z.

(** The text printed for given numbers. *)
Lemma repr_text (x : SO3bipartView) (indent : string) (l1 l2 n : Z) :
  getl1 x = Some l1 -> getl2 x = Some l2 -> getn x = Some n ->
  repr getb x indent =
    Some ("<GElib::SO3bipart(b=" +:+ to_string (getb (base x))
          +:+ ",l1=" +:+ to_string l1
          +:+ ",l2=" +:+ to_string l2
          +:+ ",n=" +:+ to_string n +:+ ")>").
Proof. intros H1 H2 Hn. unfold repr. by rewrite H1, H2, Hn. Qed.

Lemma repr_text_inj (b b' l1 l1' l2 l2' n n' : Z) :
  "<GElib::SO3bipart(b=" +:+ to_string b
    +:+ ",l1=" +:+ to_string l1 +:+ ",l2=" +:+ to_string l2
    +:+ ",n=" +:+ to_string n +:+ ")>"
  = "<GElib::SO3bipart(b=" +:+ to_string b'
    +:+ ",l1=" +:+ to_string l1' +:+ ",l2=" +:+ to_string l2'
    +:+ ",n=" +:+ to_string n' +:+ ")>" ->
  b = b' /\ l1 = l1' /\ l2 = l2' /\ n = n'.
Proof.
  assert (Hcomma : forall z, occurs ","%char (to_string z) = false)
    by (intros z; apply occurs_to_string;
        [apply comma_not_a_digit | discriminate]).
  assert (Hparen : forall z, occurs ")"%char (to_string z) = false)
    by (intros z; apply occurs_to_string;
        [apply paren_not_a_digit | discriminate]).
  assert (Hinj : forall z z', to_string z = to_string z' -> z = z')
    by (intros z z'; apply pretty_Z_inj).
  pose proof (Hcomma b) as Cb. pose proof (Hcomma b') as Cb'.
  pose proof (Hcomma l1) as C1. pose proof (Hcomma l1') as C1'.
  pose proof (Hcomma l2) as C2. pose proof (Hcomma l2') as C2'.
  pose proof (Hparen n) as Cn. pose proof (Hparen n') as Cn'.
  pose proof (Hinj b b') as Ib. pose proof (Hinj l1 l1') as I1.
  pose proof (Hinj l2 l2') as I2. pose proof (Hinj n n') as In'.
  clear Hcomma Hparen Hinj.
  generalize dependent (to_string b). generalize dependent (to_string b').
  generalize dependent (to_string l1). generalize dependent (to_string l1').
  generalize dependent (to_string l2). generalize dependent (to_string l2').
  generalize dependent (to_string n). generalize dependent (to_string n').
  intros tn' Cn' tn Cn In' t2' C2' t2 C2 I2 t1' C1' t1 C1 I1 tb' Cb' tb Cb Ib.
  intros H. apply (inj (String.app _)) in H.
  change (",l1=" +:+ ?r) with (String ","%char ("l1=" +:+ r)) in H.
  apply split_at_delimiter in H as [Eb H]; [|done..].
  apply (inj (String.app _)) in H.
  change (",l2=" +:+ ?r) with (String ","%char ("l2=" +:+ r)) in H.
  apply split_at_delimiter in H as [E1 H]; [|done..].
  apply (inj (String.app _)) in H.
  change (",n=" +:+ ?r) with (String ","%char ("n=" +:+ r)) in H.
  apply split_at_delimiter in H as [E2 H]; [|done..].
  apply (inj (String.app _)) in H.
  change (")>") with (String ")"%char ">") in H.
  apply split_at_delimiter in H as [En _]; [|done..].
  auto.
Qed.

(** X7. On views with at least four extents, [repr] tells apart exactly
    the batch size, the two degrees and the channel count: two views
    print the same text if and only if [getb()], [getl1()], [getl2()] and
    [getn()] agree.  The [indent] argument, the strides, the storage and
    the device never show. *)
Theorem X7_repr_characterised (x y : SO3bipartView) (i j : string) :
  (4 <= length (dims (base x)))%nat ->
  (4 <= length (dims (base y)))%nat ->
  (repr getb x i = repr getb y j <->
   getb (base x) = getb (base y) /\
   getl1 x = getl1 y /\ getl2 x = getl2 y /\ getn x = getn y).
Proof.
  intros Hx Hy.
  destruct (proj2 (getl1_defined x) ltac:(lia)) as [l1 E1].
  destruct (proj2 (getl2_defined x) ltac:(lia)) as [l2 E2].
  destruct (proj2 (getn_defined x) Hx) as [n En].
  destruct (proj2 (getl1_defined y) ltac:(lia)) as [l1' E1'].
  destruct (proj2 (getl2_defined y) ltac:(lia)) as [l2' E2'].
  destruct (proj2 (getn_defined y) Hy) as [n' En'].
  rewrite (repr_text x i l1 l2 n), (repr_text y j l1' l2' n') by done.
  rewrite E1, E2, En, E1', E2', En'.
  split.
  - intros H. apply (inj Some) in H.
    apply repr_text_inj in H as (-> & -> & -> & ->). done.
  - intros (-> & [= ->] & [= ->] & [= ->]). done.
Qed.

End ReprFacts.

Lemma X7_repr_characterised_witness :
  let x := mkBipart (mkTensorView 0%N [2; 5; 3; 4] [60; 12; 4; 1] 0) in
  let y := mkBipart (mkTensorView 64%N [2; 6; 4; 4] [1; 2; 12; 48] 1) in
  repr (fun t => default 0 (dims t !! 0%nat)) x ""
  = repr (fun t => default 0 (dims t !! 0%nat)) y "  ".
Proof.
  intros x y.
  apply (X7_repr_characterised (fun t => default 0 (dims t !! 0%nat)) x y).
  - simpl. lia.
  - simpl. lia.
  - repeat split; reflexivity.
Defined.

(** ** All bindings of [SO3part_py.cpp] *)

Section AllBindings.
Context {SO3part Tensor W : Type}.
Variable h : forall X, @NativeE SO3part Tensor X -> W -> outcome X * W.

(** X8. Every binding the file registers on [SO3part], not only the
    constructors, is a thin one.  [__len__] returns without touching the
    native side.  Every other binding runs as one native call, whose
    log, outcome (value or exception) and effect on the world it passes
    on as they are: no binding calls twice, and none raises unless its
    native function did.  [str] and [__str__] are the same function
    under two names. *)
Theorem X8_bindings_thin (R : Type) (c : @PyCall SO3part Tensor R) (w : W) :
  (if is_len c
   then (run h (binding c) w).1.1 = [] /\ (run h (binding c) w).2 = w
   else exists e : NativeE R, run h (binding c) w = run_native h e w) /\
  (length (run h (binding c) w).1.1 <= 1)%nat /\
  (forall ex, (run h (binding c) w).1.2 = Raised ex ->
     exists e : NativeE R,
       (run h (binding c) w).1.1 = [Step e (Raised ex)]) /\
  (forall (x : SO3part) (indent : option string),
     run h (binding (py_str x indent)) w
     = run h (binding (py___str__ x indent)) w).
Proof.
  assert (Hone : forall e : NativeE R,
    (length (run_native h e w).1.1 <= 1)%nat /\
    (forall ex, (run_native h e w).1.2 = Raised ex ->
       exists e' : NativeE R, (run_native h e w).1.1 = [Step e' (Raised ex)])).
  { intros e. unfold run_native. destruct (h R e w) as [o w1]. simpl.
    split; [lia|]. intros ex ->. by exists e. }
  split; [|split; [|split]]; try done;
    destruct c; cbn [is_len binding];
    unfold raw_lambda, zero_lambda, gaussian_lambda, torch_lambda,
           len_lambda, CGproduct_lambda;
    rewrite ?run_call; try (eexists; reflexivity);
    try (apply Hone); try (split; reflexivity);
    try (simpl; lia); try (simpl; discriminate).
Qed.

End AllBindings.

(** ** Runs of the test driver that fail *)

(** Case analysis on the position of a step in an explicit log. *)
Ltac at_each_position Hi Hs tac :=
  repeat match type of Hi with
  | (_ :: _) !! ?i = Some _ =>
      destruct i as [|i]; cbn in Hi;
      [ injection Hi as <-; cbn in Hs; first [discriminate Hs | tac] | ]
  end;
  try discriminate Hi.

Section DriverOrder.
Context {SO3vecB GElibSession W : Type}.
Variable h : forall X, @DriverE SO3vecB GElibSession X -> W -> outcome X * W.

Ltac close_run :=
  repeat match goal with x : unit |- _ => destruct x end;
  unfold ordered_run;
  split; [eexists; reflexivity|];
  split; [intros i s Hi Hs;
          at_each_position Hi Hs ltac:(eexists; reflexivity)|];
  split; [intros i s Hi Hs;
          at_each_position Hi Hs
            ltac:(split; [lia | eexists _, _, _; split; reflexivity])|];
  split; [intros ex' Ho; first [discriminate Ho
                               | injection Ho as <-; eexists _, _; reflexivity]|];
  simpl; lia.

Lemma main_ordered (w0 w' : W) (tr : list (step DriverE)) (o : outcome Z) :
  run h main w0 = (tr, o, w') -> ordered_run tr o.
Proof.
  intros H. unfold main in H. cbn in H.
  repeat match type of H with
  | context [h ?X ?e ?w] =>
      let x := fresh "x" in
      let w1 := fresh "w" in
      destruct (h X e w) as [[x | ?] w1]; cbn in H;
      [| injection H as <- <- _; close_run]
  end.
  injection H as <- <- _. close_run.
Qed.

End DriverOrder.

Section DriverRuns.
Context {SO3vecB GElibSession W : Type}.
Variable h : forall X, @DriverE SO3vecB GElibSession X -> W -> outcome X * W.

(** X9. In every run of the test driver, failing ones included, the
    second device is touched only after the product on the first one:
    a [to_device] step is never among the first twelve steps, and when
    there is one, the ninth step is the returned [u.CGproduct(v,2)] and
    the tenth has printed its result. *)
Theorem X9_transfer_after_product
    (w0 w' : W) (tr : list (step DriverE)) (o : outcome Z)
    (i : nat) (s : step DriverE) :
  run h main w0 = (tr, o, w') ->
  tr !! i = Some s -> is_to_device s = true ->
  (12 <= i)%nat /\
  exists u v p : SO3vecB,
    tr !! 8%nat = Some (Step (SO3vecB_CGproduct u v 2) (Returned p)) /\
    tr !! 9%nat = Some (Step (cout_SO3vecB p) (Returned tt)).
Proof.
  intros H Hi Hs.
  destruct (main_ordered h _ _ _ _ H) as (_ & _ & Hdev & _).
  exact (Hdev i s Hi Hs).
Qed.

(** X10. The test driver catches nothing and is bounded.  Every run
    makes at most 28 calls and starts with the construction of the
    session; a call into the SO(3) library is made only in a run whose
    session constructor returned; and when the run ends with an
    exception, it is the exception the last call raised. *)
Theorem X10_driver_fail_fast
    (w0 w' : W) (tr : list (step DriverE)) (o : outcome Z) :
  run h main w0 = (tr, o, w') ->
  (length tr <= 28)%nat /\
  (exists o0, head tr = Some (Step GElibSession_ctor o0)) /\
  (forall (i : nat) (s : step DriverE),
      tr !! i = Some s -> is_api s = true ->
      exists sess,
        tr !! 0%nat = Some (Step GElibSession_ctor (Returned sess))) /\
  (forall ex, o = Raised ex ->
      exists (X : Type) (e : DriverE X), last tr = Some (Step e (Raised ex))).
Proof.
  intros H.
  destruct (main_ordered h _ _ _ _ H) as (Hhd & Hapi & _ & Hex & Hlen).
  done.
Qed.

End DriverRuns.

Lemma X9_transfer_after_product_witness :
  exists u v p : nat,
    (run Sample.driver_side_one_device main 0%nat).1.1 !! 8%nat
    = Some (Step (SO3vecB_CGproduct u v 2) (Returned p)).
Proof.
  destruct (X9_transfer_after_product Sample.driver_side_one_device
              0%nat 3%nat
              (run Sample.driver_side_one_device main 0%nat).1.1
              (Raised "no such device") 12%nat
              (Step (SO3vecB_to_device 0%nat 1) (Raised "no such device")))
    as [_ (u & v & p & H8 & _)].
  - reflexivity.
  - reflexivity.
  - reflexivity.
  - by exists u, v, p.
Defined.

Lemma X10_driver_fail_fast_witness :
  exists (X : Type) (e : DriverE X),
    last (run Sample.driver_side_one_device main 0%nat).1.1
    = Some (Step e (@Raised X "no such device")).
Proof.
  destruct (X10_driver_fail_fast Sample.driver_side_one_device
              0%nat 3%nat
              (run Sample.driver_side_one_device main 0%nat).1.1
              (Raised "no such device"))
    as (_ & _ & _ & Hex).
  - reflexivity.
  - apply Hex. reflexivity.
Defined.
